(** * Dimensions block support: the inspector panel and the style metadata table

    A shallow embedding of two files of the block editor:

    - the dimensions hook ([DimensionsPanel], [hasDimensionsSupport],
      [useCustomSides], [useIsDimensionsSupportValid] and the panel's
      [resetAll] callback);
    - [packages/blocks/src/api/constants.js], of which the table
      [__EXPERIMENTAL_STYLE_PROPERTY] is embedded.

    JavaScript objects are finite maps from property names to values
    ([gmap string _]); a property that holds [undefined] is a key of the map
    bound to the value [undefined], which is not the same map as the one
    without the key.  Calls of [props.setAttributes] and of [console.warn]
    are the effects of the code: the functions return the calls they make. *)

From stdpp Require Import gmap strings list fin_maps pretty.

#[local] Set Warnings "-register-all".
#[local] Open Scope string_scope.

(** ** Values held by block attributes *)

(** The values a style object is built from: the scalars of the language and
    objects, nested to any depth.  Numbers only ever flow through the code,
    they are kept as integers. *)
Inductive value : Type :=
  | VUndefined
  | VNull
  | VBool (b : bool)
  | VNum (n : Z)
  | VStr (s : string)
  | VObj (m : gmap string value).

Definition is_empty_object (v : value) : bool :=
  match v with
  | VObj m => bool_decide (m = ∅)
  | _ => false
  end.

(** Number of constructors of a value, the measure of the inductions below. *)
Fixpoint vsize (v : value) : nat :=
  match v with
  | VObj m => S (map_fold (λ _ w n, vsize w + n) 0 m)
  | _ => 1
  end.

(** [w] sits somewhere inside [v]: it is the value of a property of [v], or
    of a property of a property, and so on. *)
Inductive nested_in (w : value) : value → Prop :=
  | nested_here m k :
      m !! k = Some w → nested_in w (VObj m)
  | nested_deeper m k u :
      m !! k = Some u → nested_in w u → nested_in w (VObj m).

(** *** Reading and building objects *)

(** [o.k] and [o?.k] for the keys the panel reads ([style], [dimensions],
    [spacing]): the own property when [o] is an object that has it, and
    [undefined] otherwise.  On [undefined] and [null] only the optional chain
    [o?.k] gets this far. *)
Definition get (o : value) (k : string) : value :=
  match o with
  | VObj m => default VUndefined (m !! k)
  | _ => VUndefined
  end.

(** The characters of a string as one-character strings. *)
Fixpoint chars (s : string) : list value :=
  match s with
  | EmptyString => []
  | String c s' => VStr (String c EmptyString) :: chars s'
  end.

(** The own enumerable properties copied by an object spread [{ ...v }]:
    those of an object, the indexed characters of a string, and nothing for
    [undefined], [null], booleans and numbers. *)
Definition spread (v : value) : gmap string value :=
  match v with
  | VObj m => m
  | VStr s => list_to_map (imap (λ i c, (pretty i, c)) (chars s))
  | _ => ∅
  end.

(** ** Pruning of empty objects *)

(** An object survives pruning when it has a property left. *)
Definition non_empty (m : gmap string value) : option value :=
  if decide (m = ∅) then None else Some (VObj m).

(** What is left of the value of a property after pruning: nothing when the
    value is [undefined] or an object that is empty once pruned. *)
Fixpoint clean_field (v : value) : option value :=
  match v with
  | VUndefined => None
  | VObj m => non_empty (omap clean_field m)
  | _ => Some v
  end.

(** Modelled from the spec: [cleanEmptyObject] of [./utils], which the panel
    imports and whose source is not among the files embedded here.  The spec has the
    reset actions set fields to absent and then "recursively strip empty
    nested objects", so that "any category/feature that becomes empty after a
    deletion is itself removed (transitively)"; the style object itself stays
    an object, [{}] when nothing is left.  A property set to [undefined] is
    an absent one. *)
Definition cleanEmptyObject (object : value) : value :=
  match object with
  | VObj m => VObj (omap clean_field m)
  | _ => object
  end.

(** Executable form of "no empty object at any nesting level". *)
Fixpoint no_empty_object (v : value) : bool :=
  match v with
  | VObj m =>
      map_fold (λ _ w ok, negb (is_empty_object w) && no_empty_object w && ok)
               true m
  | _ => true
  end.

(** ** The panel's reset action *)

(** The block props the panel reads: the block name and the attributes
    object.  [props.setAttributes] is the effect: an action returns the list
    of the partial attribute objects it hands to the setter, in order. *)
Record Props : Type := mkProps {
  name : string;
  attributes : gmap string value;
}.

Abbreviation update := (gmap string value).

(** The object literal of [resetAll] with the two [undefined] fields of a
    category: [{ ...category, f1: undefined, f2: undefined }]. *)
Definition without (f1 f2 : string) (category : value) : value :=
  VObj (<[f2 := VUndefined]> (<[f1 := VUndefined]> (spread category))).

(** The argument of [cleanEmptyObject] in [resetAll]: the spread of [style],
    then [dimensions], then [spacing]. *)
Definition resetAll_literal (style : value) : value :=
  VObj (<["spacing" := without "margin" "padding" (get style "spacing")]>
       (<["dimensions" := without "height" "minHeight" (get style "dimensions")]>
       (spread style))).

Definition resetAll_style (style : value) : value :=
  cleanEmptyObject (resetAll_literal style).

(** [resetAll] of [DimensionsPanel]. *)
Definition resetAll (props : Props) : list update :=
  let style := default VUndefined (attributes props !! "style") in
  [ {[ "style" := resetAll_style style ]} ].

(** *** The reset actions in the words of the spec *)

(** An object without its field [feature]; there is nothing to remove from
    a value that is not an object. *)
Definition remove_field (feature_ : string) (v : value) : value :=
  match v with
  | VObj c => VObj (delete feature_ c)
  | _ => v
  end.

(** [style] with the field [feature] of its category set to absent. *)
Definition set_absent (category feature_ : string) (style : value) : value :=
  match style with
  | VObj m => VObj (alter (remove_field feature_) category m)
  | _ => style
  end.

(** "A new style object equal to the current one with the four feature
    fields (height, minHeight under dimensions; margin, padding under
    spacing) set to absent, then recursively strips empty nested objects." *)
Definition reset_all_spec (style : value) : value :=
  cleanEmptyObject
    (set_absent "spacing" "padding"
      (set_absent "spacing" "margin"
        (set_absent "dimensions" "minHeight"
          (set_absent "dimensions" "height" style)))).

(** The shape of a style object in the data model: an object whose
    categories [dimensions] and [spacing], when it has them, are objects
    (or [undefined]). *)
Definition is_category (o : option value) : bool :=
  match o with
  | None | Some VUndefined | Some (VObj _) => true
  | Some _ => false
  end.

Definition is_style_object (style : value) : bool :=
  match style with
  | VObj m => is_category (m !! "dimensions") && is_category (m !! "spacing")
  | _ => false
  end.

(** Modelled from the spec: [resetMargin] of [./margin], whose source is
    not among the files embedded here.  The individual reset action "removes
    only its own feature field, applying the same empty-object-pruning
    rule". *)
Definition resetMargin (props : Props) : list update :=
  let style := default VUndefined (attributes props !! "style") in
  [ {[ "style" := cleanEmptyObject (set_absent "spacing" "margin" style) ]} ].

(** ** Block support configuration *)

(** The values of a block type's [supports] declaration: as [value], with
    arrays (the lists of sides). *)
Inductive config : Type :=
  | CUndefined
  | CNull
  | CBool (b : bool)
  | CNum (n : Z)
  | CStr (s : string)
  | CArr (l : list config)
  | CObj (m : gmap string config).

(** [!! c]: everything is truthy but [undefined], [null], [false], [0] and
    the empty string. *)
Definition truthy (c : config) : bool :=
  match c with
  | CUndefined | CNull => false
  | CBool b => b
  | CNum n => negb (n =? 0)%Z
  | CStr s => negb (bool_decide (s = EmptyString))
  | CArr _ | CObj _ => true
  end.

(** [typeof c === 'boolean'] *)
Definition is_boolean (c : config) : bool :=
  match c with
  | CBool _ => true
  | _ => false
  end.

(** [c[ k ]] and [c?.k] for the keys the hooks read, the feature names:
    the own property of an object, [undefined] on anything else. *)
Definition prop (c : config) (k : string) : config :=
  match c with
  | CObj m => default CUndefined (m !! k)
  | _ => CUndefined
  end.

(** The feature custom sides relate to. *)
Inductive feature : Type := Margin | Padding.

Definition feature_name (f : feature) : string :=
  match f with
  | Margin => "margin"
  | Padding => "padding"
  end.

Definition DIMENSIONS_SUPPORT_KEY : string := "__experimentalDimensions".
Definition SPACING_SUPPORT_KEY : string := "spacing".
Definition ALL_SIDES : list string := ["top"; "right"; "bottom"; "left"].
Definition AXIAL_SIDES : list string := ["vertical"; "horizontal"].

(** [sides.includes( side )] on an array of strings: only a string can be
    the same value as one of them. *)
Definition includes (sides : list string) (side : config) : bool :=
  match side with
  | CStr s => bool_decide (s ∈ sides)
  | _ => false
  end.

(** [l.some( p )] *)
Definition some (p : config → bool) (l : list config) : bool := existsb p l.

(** The outcome of a hook that may log warnings: the value returned with
    the messages given to [console.warn], or a thrown [TypeError]. *)
Inductive outcome (A : Type) : Type :=
  | Returns (a : A) (warnings : list string)
  | Throws.
Arguments Returns {A} a warnings.
Arguments Throws {A}.

(** The double quote character, code 34. *)
Definition quote : string := String (Ascii.ascii_of_nat 34) EmptyString.

(** The template literal of the warning. *)
Definition warning (feature_ blockName : string) : string :=
  "The " +:+ feature_ +:+ " support for the " +:+ quote +:+ blockName +:+ quote
  +:+ " block can not be configured to support both axial and arbitrary sides.".

(** The validity check in the words of the spec: "the declared list must be
    either a subset of the four individual sides or a subset of the two axial
    sides". *)
Definition subset_of (allowed : list string) (sides : list config) : bool :=
  forallb (includes allowed) sides.

Definition sides_valid_spec (sides : list config) : bool :=
  subset_of ALL_SIDES sides || subset_of AXIAL_SIDES sides.

(** A list of sides names one of the [allowed] sides. *)
Definition has_side (allowed : list string) (sides : list config) : Prop :=
  ∃ s, s ∈ allowed ∧ CStr s ∈ sides.

Section Hooks.
(** [getBlockSupport] of the blocks package reads the registry of block
    types, which is not part of this file: the value found at a path of
    the block type's [supports], [undefined] when there is none.  A key
    given as a string is the path of that one key. *)
Variable getBlockSupport : string → list string → config.

Definition useCustomSides (blockName : string) (feature_ : feature) : config :=
  let support := getBlockSupport blockName [SPACING_SUPPORT_KEY] in
  if negb (truthy support) then CUndefined
  else if is_boolean (prop support (feature_name feature_)) then CUndefined
  else prop support (feature_name feature_).

Definition useIsDimensionsSupportValid
    (blockName : string) (feature_ : feature) : outcome bool :=
  let sides := useCustomSides blockName feature_ in
  if truthy sides then
    match sides with
    | CArr l =>
        if some (includes ALL_SIDES) l then
          if some (includes AXIAL_SIDES) l then
            Returns false [warning (feature_name feature_) blockName]
          else Returns true []
        else Returns true []
    | _ => Throws
    end
  else Returns true [].
End Hooks.

(** ** The panel *)

(** What each of [./height], [./min-height], [./margin] and [./padding]
    exports to the panel: whether the block type supports the feature,
    whether the block has a value for it, the feature's own reset action and
    whether the feature is disabled for the block. *)
Record FeatureHooks : Type := mkFeatureHooks {
  hasSupport : string → bool;
  hasValue : Props → bool;
  reset : Props → list update;
  useIsDisabled : Props → bool;
}.

(** The edit components rendered inside the panel's items. *)
Inductive Edit : Type := HeightEdit | MinHeightEdit | PaddingEdit | MarginEdit.

(** A rendered [ToolsPanelItem].  The callbacks [hasValue] and [onDeselect]
    are kept as what they return and do when called. *)
Record ToolsPanelItem : Type := mkItem {
  item_className : option string;
  item_hasValue : bool;
  item_label : string;
  item_onDeselect : list update;
  item_isShownByDefault : config;
  item_children : Edit;
}.

(** The rendered [InspectorControls] with its [ToolsPanel].  Labels are the
    strings handed to the translation function [__]. *)
Record Element : Type := mkElement {
  key : string;
  panel_label : string;
  panel_header : string;
  panel_resetAll : list update;
  panel_children : list ToolsPanelItem;
}.

(** [{ cond && item }] among the children of an element. *)
Definition when {A} (cond : bool) (item : A) : list A :=
  if cond then [item] else [].

Section Panel.
Variable Platform_OS : string.
Variable getBlockSupport : string → list string → config.
Variables height minHeight margin padding : FeatureHooks.

Definition hasDimensionsSupport (blockName : string) : bool :=
  if negb (bool_decide (Platform_OS = "web")) then false
  else
    hasSupport height blockName
    || hasSupport minHeight blockName
    || hasSupport padding blockName
    || hasSupport margin blockName.

Definition useIsDimensionsDisabled (props : Props) : bool :=
  let heightDisabled := useIsDisabled height props in
  let minHeightDisabled := useIsDisabled minHeight props in
  let paddingDisabled := useIsDisabled padding props in
  let marginDisabled := useIsDisabled margin props in
  heightDisabled && minHeightDisabled && paddingDisabled && marginDisabled.

(** [None] is the [null] of a component that renders nothing. *)
Definition DimensionsPanel (props : Props) : option Element :=
  let isPaddingDisabled := useIsDisabled padding props in
  let isMarginDisabled := useIsDisabled margin props in
  let isHeightDisabled := useIsDisabled height props in
  let isMinHeightDisabled := useIsDisabled minHeight props in
  let isDisabled := useIsDimensionsDisabled props in
  let isSupported := hasDimensionsSupport (name props) in
  if isDisabled || negb isSupported then None
  else
    let defaultDimensionsControls :=
      getBlockSupport (name props)
        [DIMENSIONS_SUPPORT_KEY; "__experimentalDefaultControls"] in
    let defaultSpacingControls :=
      getBlockSupport (name props)
        [SPACING_SUPPORT_KEY; "__experimentalDefaultControls"] in
    Some {|
      key := "dimensions";
      panel_label := "Dimensions options";
      panel_header := "Dimensions";
      panel_resetAll := resetAll props;
      panel_children :=
        when (negb isHeightDisabled) {|
          item_className := Some "single-column";
          item_hasValue := hasValue height props;
          item_label := "Height";
          item_onDeselect := reset height props;
          item_isShownByDefault := prop defaultDimensionsControls "height";
          item_children := HeightEdit |}
        ++ when (negb isMinHeightDisabled) {|
          item_className := Some "single-column";
          item_hasValue := hasValue minHeight props;
          item_label := "Minimum height";
          item_onDeselect := reset minHeight props;
          item_isShownByDefault := prop defaultDimensionsControls "minHeight";
          item_children := MinHeightEdit |}
        ++ when (negb isPaddingDisabled) {|
          item_className := None;
          item_hasValue := hasValue padding props;
          item_label := "Padding";
          item_onDeselect := reset padding props;
          item_isShownByDefault := prop defaultSpacingControls "padding";
          item_children := PaddingEdit |}
        ++ when (negb isMarginDisabled) {|
          item_className := None;
          item_hasValue := hasValue margin props;
          item_label := "Margin";
          item_onDeselect := reset margin props;
          item_isShownByDefault := prop defaultSpacingControls "margin";
          item_children := MarginEdit |};
    |}.
End Panel.

(** The block type supports none of the four features. *)
Definition none_supported (height minHeight margin padding : FeatureHooks)
    (blockName : string) : Prop :=
  hasSupport height blockName = false
  ∧ hasSupport minHeight blockName = false
  ∧ hasSupport padding blockName = false
  ∧ hasSupport margin blockName = false.

(** Each of the four features is disabled for the block. *)
Definition all_disabled (height minHeight margin padding : FeatureHooks)
    (props : Props) : Prop :=
  useIsDisabled height props = true
  ∧ useIsDisabled minHeight props = true
  ∧ useIsDisabled padding props = true
  ∧ useIsDisabled margin props = true.

(** The edit components in the order the panel lists them. *)
Definition control_order : list Edit :=
  [HeightEdit; MinHeightEdit; PaddingEdit; MarginEdit].

(** The feature an edit component belongs to: its hooks, the support key
    its default visibility is declared under, and its name there. *)
Definition hooks_of (height minHeight margin padding : FeatureHooks)
    (e : Edit) : FeatureHooks :=
  match e with
  | HeightEdit => height
  | MinHeightEdit => minHeight
  | PaddingEdit => padding
  | MarginEdit => margin
  end.

Definition control_support_key (e : Edit) : string :=
  match e with
  | HeightEdit | MinHeightEdit => DIMENSIONS_SUPPORT_KEY
  | PaddingEdit | MarginEdit => SPACING_SUPPORT_KEY
  end.

Definition control_feature (e : Edit) : string :=
  match e with
  | HeightEdit => "height"
  | MinHeightEdit => "minHeight"
  | PaddingEdit => "padding"
  | MarginEdit => "margin"
  end.

(** The value found in [v] by following the keys of a path, as the
    consumers of the metadata table read a style object. *)
Definition get_path (v : value) (path : list string) : value :=
  foldl get v path.

(** ** The style metadata table of [constants.js] *)

Module Constants.

(** An entry of the table: where the value lives in a style object, where
    the block type declares support for it, and for some entries the
    sides or corners the individual CSS properties map to. *)
Record StyleProperty : Type := mkStyleProperty {
  value : list string;
  support : list string;
  properties : option (list (string * string));
}.

(** The entries of the object literal, in the order they are written. *)
Definition entries : list (string * StyleProperty) := [
  ("--wp--style--color--link",
    mkStyleProperty ["color"; "link"] ["color"; "link"] None);
  ("background",
    mkStyleProperty ["color"; "gradient"] ["color"; "gradients"] None);
  ("backgroundColor",
    mkStyleProperty ["color"; "background"] ["color"] None);
  ("borderColor",
    mkStyleProperty ["border"; "color"] ["__experimentalBorder"; "color"] None);
  ("borderRadius",
    mkStyleProperty ["border"; "radius"] ["__experimentalBorder"; "radius"]
      (Some [ ("borderTopLeftRadius", "topLeft");
              ("borderTopRightRadius", "topRight");
              ("borderBottomLeftRadius", "bottomLeft");
              ("borderBottomRightRadius", "bottomRight") ]));
  ("borderStyle",
    mkStyleProperty ["border"; "style"] ["__experimentalBorder"; "style"] None);
  ("borderWidth",
    mkStyleProperty ["border"; "width"] ["__experimentalBorder"; "width"] None);
  ("color",
    mkStyleProperty ["color"; "text"] ["color"] None);
  ("linkColor",
    mkStyleProperty ["elements"; "link"; "color"; "text"] ["color"; "link"] None);
  ("fontFamily",
    mkStyleProperty ["typography"; "fontFamily"]
      ["typography"; "__experimentalFontFamily"] None);
  ("fontSize",
    mkStyleProperty ["typography"; "fontSize"] ["typography"; "fontSize"] None);
  ("fontStyle",
    mkStyleProperty ["typography"; "fontStyle"]
      ["typography"; "__experimentalFontStyle"] None);
  ("fontWeight",
    mkStyleProperty ["typography"; "fontWeight"]
      ["typography"; "__experimentalFontWeight"] None);
  ("lineHeight",
    mkStyleProperty ["typography"; "lineHeight"] ["typography"; "lineHeight"] None);
  ("margin",
    mkStyleProperty ["spacing"; "margin"] ["spacing"; "margin"]
      (Some [ ("marginTop", "top");
              ("marginRight", "right");
              ("marginBottom", "bottom");
              ("marginLeft", "left") ]));
  ("padding",
    mkStyleProperty ["spacing"; "padding"] ["spacing"; "padding"]
      (Some [ ("paddingTop", "top");
              ("paddingRight", "right");
              ("paddingBottom", "bottom");
              ("paddingLeft", "left") ]));
  ("textDecoration",
    mkStyleProperty ["typography"; "textDecoration"]
      ["typography"; "__experimentalTextDecoration"] None);
  ("textTransform",
    mkStyleProperty ["typography"; "textTransform"]
      ["typography"; "__experimentalTextTransform"] None);
  ("letterSpacing",
    mkStyleProperty ["typography"; "letterSpacing"]
      ["__experimentalLetterSpacing"] None)
].

(** The object: its properties by name. *)
Definition __EXPERIMENTAL_STYLE_PROPERTY : gmap string StyleProperty :=
  list_to_map entries.

(** The sides (or corners) the sub-properties of an entry map to. *)
Definition targets (e : StyleProperty) : list string :=
  match properties e with
  | Some ps => ps.*2
  | None => []
  end.

(** Both paths of an entry have at least one key. *)
Definition well_formed (e : StyleProperty) : bool :=
  negb (bool_decide (value e = [])) && negb (bool_decide (support e = [])).

(** The keys of a deprecation object. *)
Definition DEPRECATED_ENTRY_KEYS : list string :=
  ["attributes"; "supports"; "save"; "migrate"; "isEligible"; "apiVersion"].

(** The entries of [__EXPERIMENTAL_ELEMENTS], in the order they are
    written, and the object. *)
Definition element_entries : list (string * string) := [
  ("link", "a");
  ("h1", "h1");
  ("h2", "h2");
  ("h3", "h3");
  ("h4", "h4");
  ("h5", "h5");
  ("h6", "h6")
].

Definition __EXPERIMENTAL_ELEMENTS : gmap string string :=
  list_to_map element_entries.

(** A class generated for a preset: the suffix of its name and the CSS
    property it sets. *)
Record ClassDescriptor : Type := mkClass {
  classSuffix : string;
  propertyName : string;
}.

Record PresetMetadata : Type := mkPreset {
  path : list string;
  valueKey : string;
  cssVarInfix : string;
  classes : list ClassDescriptor;
}.

Definition __EXPERIMENTAL_PRESET_METADATA : list PresetMetadata := [
  mkPreset ["color"; "palette"] "color" "color"
    [ mkClass "color" "color";
      mkClass "background-color" "background-color";
      mkClass "border-color" "border-color" ];
  mkPreset ["color"; "gradients"] "gradient" "gradient"
    [ mkClass "gradient-background" "background" ];
  mkPreset ["typography"; "fontSizes"] "size" "font-size"
    [ mkClass "font-size" "font-size" ];
  mkPreset ["typography"; "fontFamilies"] "fontFamily" "font-family" []
].

(** The names of the sub-properties of an entry. *)
Definition sub_properties (e : StyleProperty) : list string :=
  match properties e with
  | Some ps => ps.*1
  | None => []
  end.

End Constants.

(** ** Sample inputs *)

(** A registry in which every block type declares [spacing] as its spacing
    support and nothing else. *)
Definition supports (spacing : config) : string → list string → config :=
  λ _ path, if decide (path = [SPACING_SUPPORT_KEY]) then spacing else CUndefined.

(** A style with a value for each of the four features and a colour. *)
Definition sample_style : value :=
  VObj {[
    "color" := VObj {[ "text" := VStr "#000" ]};
    "dimensions" := VObj {[ "height" := VStr "100px"; "minHeight" := VStr "50px" ]};
    "spacing" := VObj {[
      "margin" := VObj {[ "top" := VStr "10px" ]};
      "padding" := VObj {[ "vertical" := VStr "1em" ]};
      "blockGap" := VStr "2em" ]} ]}.

Definition sample_props : Props :=
  mkProps "core/group" {[ "style" := sample_style; "align" := VStr "wide" ]}.

(** A feature that every block type supports and no block disables. *)
Definition enabled_feature : FeatureHooks :=
  mkFeatureHooks (λ _, true) (λ _, false) (λ _, []) (λ _, false).

(** A feature that every block type supports and every block disables. *)
Definition disabled_feature : FeatureHooks :=
  mkFeatureHooks (λ _, true) (λ _, false) (λ _, []) (λ _, true).

(** * Properties *)

(** ** Induction on values *)

Lemma vsize_lookup (m : gmap string value) k w :
  m !! k = Some w → vsize w < vsize (VObj m).
Proof.
  simpl. induction m as [|i x m Hi Hfold IH] using map_first_key_ind.
  - by rewrite lookup_empty.
  - rewrite map_fold_insert_first_key by done.
    intros [[-> ->]|[_ Hk]]%lookup_insert_Some; [lia|].
    specialize (IH Hk). lia.
Qed.

(** A property holds of every value when it holds of a value as soon as it
    holds of the values of its properties. *)
Lemma value_nested_ind (P : value → Prop) :
  (∀ v, (∀ m k w, v = VObj m → m !! k = Some w → P w) → P v) →
  ∀ v, P v.
Proof.
  intros step v.
  induction v as [v IH] using (well_founded_induction (well_founded_ltof _ vsize)).
  apply step. intros m k w -> Hk.
  apply IH. by eapply vsize_lookup.
Qed.

Lemma nested_in_scalar w v :
  nested_in w v → ∃ m, v = VObj m.
Proof. destruct 1; eauto. Qed.

(** ** Pruning *)

Lemma clean_field_obj (m : gmap string value) :
  clean_field (VObj m) = non_empty (omap clean_field m).
Proof. reflexivity. Qed.

Lemma non_empty_Some (m : gmap string value) w :
  non_empty m = Some w → w = VObj m ∧ m ≠ ∅.
Proof. unfold non_empty. case_decide; [done|]. by intros [= <-]. Qed.

(** A pruned value is neither [undefined] nor the empty object. *)
Lemma clean_field_Some v w :
  clean_field v = Some w → w ≠ VUndefined ∧ w ≠ VObj ∅.
Proof.
  destruct v; simpl; try (intros [= <-]; split; congruence).
  intros [-> ?]%non_empty_Some. split; congruence.
Qed.

(** Pruning leaves a pruned value as it is. *)
Lemma clean_field_fixed v w :
  clean_field v = Some w → clean_field w = Some w.
Proof.
  revert w. induction v as [v IH] using value_nested_ind. intros w.
  destruct v; simpl; try (by intros [= <-]).
  intros [-> Hne]%non_empty_Some.
  assert (omap clean_field (omap clean_field m) = omap clean_field m) as Hfix.
  { apply map_eq. intros i. rewrite !lookup_omap.
    destruct (m !! i) as [x|] eqn:Hi; simpl; [|done].
    destruct (clean_field x) as [y|] eqn:Hx; simpl; [|done].
    by eapply IH. }
  rewrite clean_field_obj, Hfix. unfold non_empty. by rewrite decide_False.
Qed.

Lemma omap_clean_field_fixed (m : gmap string value) :
  omap clean_field (omap clean_field m) = omap clean_field m.
Proof.
  apply map_eq. intros i. rewrite !lookup_omap.
  destruct (m !! i) as [x|]; simpl; [|done].
  destruct (clean_field x) as [y|] eqn:Hx; simpl; [|done].
  by eapply clean_field_fixed.
Qed.

(** Nothing inside a pruned value is [undefined] or an empty object. *)
Lemma clean_field_nested v w u :
  clean_field v = Some w → nested_in u w → u ≠ VUndefined ∧ u ≠ VObj ∅.
Proof.
  revert w u. induction v as [v IH] using value_nested_ind. intros w u.
  destruct v; simpl;
    try (intros [= <-] [? [=]]%nested_in_scalar).
  intros [-> _]%non_empty_Some Hu.
  inversion Hu as [m' k Hk|m' k x Hk Hx]; subst;
    apply lookup_omap_Some in Hk as (y & Hy & Hm).
  - by eapply clean_field_Some.
  - by eapply IH.
Qed.

Lemma cleanEmptyObject_nested (m : gmap string value) u :
  nested_in u (cleanEmptyObject (VObj m)) → u ≠ VUndefined ∧ u ≠ VObj ∅.
Proof.
  simpl. intros Hu.
  inversion Hu as [m' k Hk|m' k x Hk Hx]; subst;
    apply lookup_omap_Some in Hk as (y & Hy & Hm).
  - by eapply clean_field_Some.
  - by eapply clean_field_nested.
Qed.

Lemma cleanEmptyObject_fixed v :
  cleanEmptyObject (cleanEmptyObject v) = cleanEmptyObject v.
Proof. destruct v; simpl; try done. by rewrite omap_clean_field_fixed. Qed.

(** The executable check agrees with the relation [nested_in]. *)
Lemma no_empty_object_obj (m : gmap string value) :
  no_empty_object (VObj m) = true
  ↔ ∀ k w, m !! k = Some w →
      is_empty_object w = false ∧ no_empty_object w = true.
Proof.
  simpl. induction m as [|i x m Hi Hfold IH] using map_first_key_ind.
  - rewrite map_fold_empty. split; [|done]. intros _ k w.
    by rewrite lookup_empty.
  - rewrite map_fold_insert_first_key by done.
    rewrite !andb_true_iff, negb_true_iff, IH. split.
    + intros [[He Hx] Hm] k w [[-> ->]|[_ Hk]]%lookup_insert_Some; eauto.
    + intros Hall. split_and!.
      * eapply (Hall i), lookup_insert_eq.
      * eapply (Hall i), lookup_insert_eq.
      * intros k w Hk. apply (Hall k). rewrite lookup_insert_ne; [done|].
        intros ->. congruence.
Qed.

Lemma is_empty_object_false w :
  is_empty_object w = false ↔ w ≠ VObj ∅.
Proof.
  destruct w; simpl; try (split; [congruence|done]).
  rewrite bool_decide_eq_false. split; [congruence|]. intros H ->. done.
Qed.

Lemma no_empty_object_nested v :
  no_empty_object v = true ↔ ∀ w, nested_in w v → w ≠ VObj ∅.
Proof.
  induction v as [v IH] using value_nested_ind.
  destruct v;
    try (split; [by intros _ w [? [=]]%nested_in_scalar | done]).
  rewrite no_empty_object_obj. split.
  - intros Hall w Hw.
    inversion Hw as [m' k Hk|m' k u Hk Hu]; subst.
    + apply is_empty_object_false. by eapply Hall.
    + destruct (Hall _ _ Hk) as [_ Hdeep].
      eapply (IH m k u eq_refl Hk) in Hdeep; eauto.
  - intros Hall k w Hk. split.
    + apply is_empty_object_false. eapply Hall. by econstructor 1.
    + apply (IH m k w eq_refl Hk). intros u Hu. eapply Hall.
      by econstructor 2.
Qed.

(** ** The reset action *)

(** The strings the proofs compare are told apart by computation. *)
Local Ltac key_ne := by (intros [=]).

(** Pruning the literal of a category: the [undefined] fields go, and the
    category with them when nothing else is left. *)
Lemma clean_field_without f1 f2 c :
  clean_field (without f1 f2 c)
  = non_empty (delete f2 (delete f1 (omap clean_field (spread c)))).
Proof.
  unfold without. rewrite clean_field_obj.
  by rewrite !omap_insert_None by done.
Qed.

Lemma delete_twice (f1 f2 : string) (m : gmap string value) :
  delete f2 (delete f1 (delete f2 (delete f1 m))) = delete f2 (delete f1 m).
Proof.
  apply map_eq. intros i. rewrite !lookup_delete.
  by repeat case_decide.
Qed.

(** Resetting a category that has been reset and pruned changes nothing. *)
Lemma clean_field_without_again f1 f2 c :
  clean_field (without f1 f2 (default VUndefined (clean_field (without f1 f2 c))))
  = clean_field (without f1 f2 c).
Proof.
  rewrite (clean_field_without f1 f2 c).
  set (Y := delete f2 (delete f1 (omap clean_field (spread c)))).
  destruct (non_empty Y) as [w|] eqn:HY.
  - apply non_empty_Some in HY as [-> HY].
    rewrite clean_field_without. simpl.
    assert (delete f2 (delete f1 (omap clean_field Y)) = Y) as ->.
    { unfold Y. rewrite !omap_delete, omap_clean_field_fixed.
      apply delete_twice. }
    unfold non_empty. by rewrite decide_False.
  - rewrite clean_field_without. simpl.
    rewrite omap_empty, !delete_empty. unfold non_empty. by rewrite decide_True.
Qed.

(** The style that [resetAll] passes, property by property. *)
Lemma resetAll_style_lookup style i :
  spread (resetAll_style style) !! i
  = if decide (i = "spacing") then
      clean_field (without "margin" "padding" (get style "spacing"))
    else if decide (i = "dimensions") then
      clean_field (without "height" "minHeight" (get style "dimensions"))
    else spread style !! i ≫= clean_field.
Proof.
  unfold resetAll_style, resetAll_literal. simpl. rewrite lookup_omap.
  case_decide as Hsp; [subst; by rewrite lookup_insert_eq|].
  rewrite lookup_insert_ne by done.
  case_decide as Hdim; [subst; by rewrite lookup_insert_eq|].
  by rewrite lookup_insert_ne by done.
Qed.

Lemma resetAll_style_obj style :
  resetAll_style style = VObj (spread (resetAll_style style)).
Proof. reflexivity. Qed.

Lemma resetAll_style_get style k :
  get (resetAll_style style) k
  = default VUndefined (spread (resetAll_style style) !! k).
Proof. reflexivity. Qed.

Lemma resetAll_style_again style :
  resetAll_style (resetAll_style style) = resetAll_style style.
Proof.
  rewrite (resetAll_style_obj (resetAll_style style)).
  rewrite (resetAll_style_obj style) at 2.
  f_equal. apply map_eq. intros i.
  rewrite (resetAll_style_lookup (resetAll_style style)).
  rewrite !resetAll_style_get, !resetAll_style_lookup. simpl.
  repeat case_decide; try apply clean_field_without_again.
  destruct (spread style !! i) as [x|]; simpl; [|done].
  destruct (clean_field x) as [y|] eqn:Hx; simpl; [|done].
  by eapply clean_field_fixed.
Qed.

(** On a category of the data model, the literal of [resetAll] prunes to
    what removing the two fields prunes to. *)
Lemma clean_field_without_category f1 f2 (o : option value) :
  is_category o = true →
  clean_field (without f1 f2 (default VUndefined o))
  = (remove_field f2 <$> (remove_field f1 <$> o)) ≫= clean_field.
Proof.
  intros Ho. rewrite clean_field_without.
  destruct o as [[| | | | |c]|]; try done. simpl. by rewrite !omap_delete.
Qed.

(** On a style object of the data model, the style [resetAll] passes is the
    one the spec describes. *)
Lemma resetAll_style_spec style :
  is_style_object style = true → resetAll_style style = reset_all_spec style.
Proof.
  destruct style as [| | | | |m]; try done. cbn [is_style_object].
  intros [Hdim Hsp]%andb_true_iff.
  rewrite resetAll_style_obj.
  unfold reset_all_spec. cbn [set_absent cleanEmptyObject]. f_equal.
  apply map_eq. intros i. rewrite resetAll_style_lookup, lookup_omap.
  cbn [get spread].
  case_decide as Hi; [subst i|].
  { rewrite clean_field_without_category by done.
    by rewrite !lookup_alter_eq, !lookup_alter_ne by key_ne. }
  rewrite !(lookup_alter_ne _ _ "spacing") by done.
  case_decide as Hj; [subst i|].
  { rewrite clean_field_without_category by done.
    by rewrite !lookup_alter_eq. }
  by rewrite !lookup_alter_ne by done.
Qed.

(** [C1] The panel's [resetAll] calls the attribute setter exactly once, and
    on attributes that carry a style object it passes, as [style], the
    current style with [dimensions.height], [dimensions.minHeight],
    [spacing.margin] and [spacing.padding] set to absent and the empty
    nested objects stripped: one update, not four and not a part of it. *)
Theorem resetAll_single_update (props : Props) (style : value) :
  attributes props !! "style" = Some style →
  is_style_object style = true →
  resetAll props = [ {[ "style" := reset_all_spec style ]} ]
  ∧ length (resetAll props) = 1.
Proof.
  intros Hstyle Hshape. split; [|done].
  unfold resetAll. rewrite Hstyle. simpl.
  by rewrite resetAll_style_spec.
Qed.

(** [C2] The style that [resetAll] passes to the setter holds no empty
    object at any nesting level, whatever the attributes were: a category or
    feature object left empty by the reset is removed, and so is every
    object that this empties in turn. *)
Theorem resetAll_no_empty_object (props : Props) :
  ∃ style',
    resetAll props = [ {[ "style" := style' ]} ]
    ∧ no_empty_object style' = true
    ∧ ∀ w, nested_in w style' → w ≠ VObj ∅ ∧ w ≠ VUndefined.
Proof.
  eexists. split; [reflexivity|].
  set (style := default VUndefined (attributes props !! "style")).
  assert (∀ w, nested_in w (resetAll_style style) → w ≠ VUndefined ∧ w ≠ VObj ∅)
    as Hnested by apply cleanEmptyObject_nested.
  split.
  - apply no_empty_object_nested. intros w Hw. by apply Hnested.
  - intros w Hw. split; by apply Hnested.
Qed.

(** The transformation in the words of the spec, property by property. *)
Lemma reset_all_spec_obj (m : gmap string value) :
  reset_all_spec (VObj m) = VObj (spread (reset_all_spec (VObj m))).
Proof. reflexivity. Qed.

Lemma reset_all_spec_lookup (m : gmap string value) i :
  spread (reset_all_spec (VObj m)) !! i
  = if decide (i = "spacing") then
      (remove_field "padding" <$> (remove_field "margin" <$> m !! i))
        ≫= clean_field
    else if decide (i = "dimensions") then
      (remove_field "minHeight" <$> (remove_field "height" <$> m !! i))
        ≫= clean_field
    else m !! i ≫= clean_field.
Proof.
  unfold reset_all_spec. cbn [set_absent cleanEmptyObject spread].
  rewrite lookup_omap.
  case_decide as Hi; [subst i|].
  { by rewrite !lookup_alter_eq, !lookup_alter_ne by key_ne. }
  rewrite !(lookup_alter_ne _ _ "spacing") by done.
  case_decide as Hj; [subst i|].
  { by rewrite !lookup_alter_eq. }
  by rewrite !lookup_alter_ne by done.
Qed.

(** Removing the two fields from a category that went through it and
    through pruning changes nothing. *)
Lemma remove_fields_again f1 f2 v y :
  clean_field (remove_field f2 (remove_field f1 v)) = Some y →
  clean_field (remove_field f2 (remove_field f1 y)) = Some y.
Proof.
  destruct v as [| | | | |c]; cbn [remove_field]; try (by intros [= <-]).
  rewrite clean_field_obj, !omap_delete.
  intros [-> Hne]%non_empty_Some. cbn [remove_field].
  rewrite clean_field_obj, !omap_delete, omap_clean_field_fixed, delete_twice.
  unfold non_empty. by rewrite decide_False.
Qed.

Lemma reset_all_spec_again style :
  reset_all_spec (reset_all_spec style) = reset_all_spec style.
Proof.
  destruct style as [| | | | |m]; try done.
  rewrite (reset_all_spec_obj m) at 1.
  rewrite reset_all_spec_obj. rewrite (reset_all_spec_obj m) at 2.
  f_equal. apply map_eq. intros i.
  rewrite (reset_all_spec_lookup (spread _)), !reset_all_spec_lookup.
  repeat case_decide.
  - destruct (m !! i) as [v|]; simpl; [|done].
    destruct (clean_field _) as [y|] eqn:Hy; simpl; [|done].
    by eapply remove_fields_again.
  - destruct (m !! i) as [v|]; simpl; [|done].
    destruct (clean_field _) as [y|] eqn:Hy; simpl; [|done].
    by eapply remove_fields_again.
  - destruct (m !! i) as [v|]; simpl; [|done].
    destruct (clean_field v) as [y|] eqn:Hy; simpl; [|done].
    by eapply clean_field_fixed.
Qed.

(** [C7] The reset-all transformation is idempotent: the style passed by
    [resetAll] is left as it is by a second [resetAll], for every style and
    for every attributes object; and so it is in the words of the spec,
    where the four fields are deleted and the empty objects pruned. *)
Theorem resetAll_idempotent (props : Props) (style : value) :
  let style' := resetAll_style (default VUndefined (attributes props !! "style")) in
  resetAll props = [ {[ "style" := style' ]} ]
  ∧ resetAll (mkProps (name props) (<["style" := style']> (attributes props)))
    = resetAll props
  ∧ resetAll_style (resetAll_style style) = resetAll_style style
  ∧ reset_all_spec (reset_all_spec style) = reset_all_spec style.
Proof.
  split_and!.
  - reflexivity.
  - unfold resetAll. simpl. rewrite lookup_insert_eq. simpl.
    by rewrite resetAll_style_again.
  - apply resetAll_style_again.
  - apply reset_all_spec_again.
Qed.

(** [C8] On the style [{ spacing: { margin: { top: "10px" } } }], resetting
    the margin produces the style [{}]: the [spacing] object goes with its
    last field, it is not kept empty.  [resetAll] does the same there. *)
Theorem reset_margin_scenario (blockName : string) :
  let style :=
    VObj {[ "spacing" := VObj {[ "margin" := VObj {[ "top" := VStr "10px" ]} ]} ]} in
  let props := mkProps blockName {[ "style" := style ]} in
  resetMargin props = [ {[ "style" := VObj ∅ ]} ]
  ∧ resetMargin props ≠ [ {[ "style" := VObj {[ "spacing" := VObj ∅ ]} ]} ]
  ∧ resetAll props = [ {[ "style" := VObj ∅ ]} ].
Proof.
  split_and!.
  - reflexivity.
  - intros Heq.
    assert (VObj ∅ = VObj {[ "spacing" := VObj ∅ ]}) as [=].
    { apply (inj Some).
      by apply (f_equal (λ l, head l ≫= (.!! "style"))) in Heq. }
  - reflexivity.
Qed.

(** ** The sides of margin and padding *)

Lemma some_includes allowed (l : list config) :
  some (includes allowed) l = true ↔ has_side allowed l.
Proof.
  unfold some, has_side. rewrite existsb_exists. split.
  - intros ([| | | |s| |] & Hin & Hs); try done.
    exists s. split; [by apply bool_decide_eq_true in Hs|].
    by apply list_elem_of_In.
  - intros (s & Hs & Hin). exists (CStr s). split; [by apply list_elem_of_In|].
    by apply bool_decide_eq_true.
Qed.

Lemma some_includes_false allowed (l : list config) :
  some (includes allowed) l = false ↔ ¬ has_side allowed l.
Proof. rewrite <-some_includes. by destruct (some _ l). Qed.

(** The two kinds of sides share no name. *)
Lemma subset_of_no_other allowed other (l : list config) :
  (∀ s, s ∈ allowed → s ∉ other) →
  subset_of allowed l = true → ¬ has_side other l.
Proof.
  intros Hdisj Hsub (s & Hs & Hin).
  unfold subset_of in Hsub. rewrite forallb_forall in Hsub.
  specialize (Hsub (CStr s)). rewrite <-list_elem_of_In in Hsub.
  specialize (Hsub Hin). apply bool_decide_eq_true in Hsub.
  by eapply Hdisj.
Qed.

Lemma ALL_SIDES_not_axial s : s ∈ ALL_SIDES → s ∉ AXIAL_SIDES.
Proof.
  unfold ALL_SIDES, AXIAL_SIDES. rewrite !elem_of_cons, !elem_of_nil.
  intros [->|[->|[->|[->|[]]]]] [[=]|[[=]|[]]].
Qed.

Section HooksFacts.
Variable getBlockSupport : string → list string → config.

Abbreviation useCustomSides := (useCustomSides getBlockSupport).
Abbreviation useIsDimensionsSupportValid :=
  (useIsDimensionsSupportValid getBlockSupport).

Lemma useCustomSides_falsy blockName f :
  truthy (getBlockSupport blockName [SPACING_SUPPORT_KEY]) = false →
  useCustomSides blockName f = CUndefined.
Proof. unfold useCustomSides. by intros ->. Qed.

Lemma useCustomSides_boolean blockName f b :
  prop (getBlockSupport blockName [SPACING_SUPPORT_KEY]) (feature_name f)
  = CBool b →
  useCustomSides blockName f = CUndefined.
Proof.
  unfold useCustomSides. intros ->. by destruct (truthy _).
Qed.

Lemma useCustomSides_declared blockName f :
  truthy (getBlockSupport blockName [SPACING_SUPPORT_KEY]) = true →
  is_boolean
    (prop (getBlockSupport blockName [SPACING_SUPPORT_KEY]) (feature_name f))
  = false →
  useCustomSides blockName f
  = prop (getBlockSupport blockName [SPACING_SUPPORT_KEY]) (feature_name f).
Proof. unfold useCustomSides. by intros -> ->. Qed.

(** What the validity check returns on a list of sides. *)
Lemma valid_on_list blockName f l :
  useCustomSides blockName f = CArr l →
  useIsDimensionsSupportValid blockName f
  = if some (includes ALL_SIDES) l && some (includes AXIAL_SIDES) l
    then Returns false [warning (feature_name f) blockName]
    else Returns true [].
Proof.
  intros Hl. unfold useIsDimensionsSupportValid. rewrite Hl. simpl.
  by destruct (some _ l), (some _ l).
Qed.

(** Without a list of sides the configuration is valid. *)
Lemma valid_on_falsy blockName f :
  truthy (useCustomSides blockName f) = false →
  useIsDimensionsSupportValid blockName f = Returns true [].
Proof.
  intros Hl. unfold useIsDimensionsSupportValid. by rewrite Hl.
Qed.

(** [C3], amended.  On a declared list of sides the check reports valid
    exactly when the list does not name both an individual side (top,
    right, bottom, left) and an axial side (vertical, horizontal).  So a
    subset of the individual sides and a subset of the axial sides are
    valid, and so is a list with names of neither kind; without a list
    (no configuration) the check reports valid. *)
Theorem valid_iff_not_mixed blockName f l :
  useCustomSides blockName f = CArr l →
  (useIsDimensionsSupportValid blockName f = Returns true []
   ↔ ¬ (has_side ALL_SIDES l ∧ has_side AXIAL_SIDES l))
  ∧ (sides_valid_spec l = true →
     useIsDimensionsSupportValid blockName f = Returns true [])
  ∧ (∀ blockName' f',
       truthy (useCustomSides blockName' f') = false →
       useIsDimensionsSupportValid blockName' f' = Returns true []).
Proof.
  intros Hl. rewrite (valid_on_list _ _ _ Hl).
  assert (some (includes ALL_SIDES) l && some (includes AXIAL_SIDES) l = false
          ↔ ¬ (has_side ALL_SIDES l ∧ has_side AXIAL_SIDES l)) as Hmix.
  { rewrite andb_false_iff, !some_includes_false. split; [tauto|].
    intros Hnot. destruct (some (includes ALL_SIDES) l) eqn:Hall.
    - right. apply some_includes in Hall. tauto.
    - left. by apply some_includes_false. }
  split_and!.
  - rewrite <-Hmix. by destruct (_ && _).
  - intros Hspec.
    assert (¬ (has_side ALL_SIDES l ∧ has_side AXIAL_SIDES l)) as Hnot;
      [|apply Hmix in Hnot; by rewrite Hnot].
    apply orb_true_iff in Hspec as [Hsub|Hsub]; intros [Hall Hax].
    + revert Hax. eapply subset_of_no_other; [|done].
      apply ALL_SIDES_not_axial.
    + revert Hall. eapply subset_of_no_other; [|done].
      intros s Hs Hs'. by eapply ALL_SIDES_not_axial.
  - apply valid_on_falsy.
Qed.

(** [C4] When the declared list of sides names an individual side and an
    axial side, the check returns [false] and logs exactly one warning,
    [The <feature> support for the "<blockName>" block can not be
    configured to support both axial and arbitrary sides.], with the name
    of the feature and the name of the block in it. *)
Theorem mixed_sides_invalid blockName f m l :
  getBlockSupport blockName [SPACING_SUPPORT_KEY] = CObj m →
  m !! feature_name f = Some (CArr l) →
  has_side ALL_SIDES l →
  has_side AXIAL_SIDES l →
  useIsDimensionsSupportValid blockName f
  = Returns false
      [ "The " +:+ feature_name f +:+ " support for the " +:+ quote
        +:+ blockName +:+ quote
        +:+ " block can not be configured to support both axial and arbitrary sides." ].
Proof.
  intros Hsupport Hsides Hall Hax.
  assert (useCustomSides blockName f = CArr l) as Hl.
  { unfold useCustomSides. rewrite Hsupport. simpl.
    by rewrite Hsides. }
  rewrite (valid_on_list _ _ _ Hl).
  apply some_includes in Hall, Hax. by rewrite Hall, Hax.
Qed.

(** [C5] [useCustomSides] returns [undefined] when the block has no
    spacing support configuration and when the configuration of the feature
    is a boolean; otherwise it returns what the configuration declares for
    the feature, as it is.  With the sides [["top", "bottom"]] declared it
    returns that list, with [true] it returns [undefined]. *)
Theorem useCustomSides_spec blockName f :
  let support := getBlockSupport blockName [SPACING_SUPPORT_KEY] in
  (truthy support = false → useCustomSides blockName f = CUndefined)
  ∧ (∀ b, prop support (feature_name f) = CBool b →
       useCustomSides blockName f = CUndefined)
  ∧ (truthy support = true →
     is_boolean (prop support (feature_name f)) = false →
     useCustomSides blockName f = prop support (feature_name f))
  ∧ (∀ m l, support = CObj m → m !! feature_name f = Some (CArr l) →
       useCustomSides blockName f = CArr l)
  ∧ (∀ m, support = CObj m →
       m !! feature_name f = Some (CArr [CStr "top"; CStr "bottom"]) →
       useCustomSides blockName f = CArr [CStr "top"; CStr "bottom"])
  ∧ (∀ m, support = CObj m → m !! feature_name f = Some (CBool true) →
       useCustomSides blockName f = CUndefined).
Proof.
  intros support.
  assert (∀ m c, support = CObj m → m !! feature_name f = Some c →
            prop support (feature_name f) = c) as Hprop.
  { intros m c -> Hc. simpl. by rewrite Hc. }
  split_and!.
  - apply useCustomSides_falsy.
  - apply useCustomSides_boolean.
  - apply useCustomSides_declared.
  - intros m l Hm Hl. rewrite useCustomSides_declared; fold support.
    + by eapply Hprop.
    + by rewrite Hm.
    + by rewrite (Hprop _ _ Hm Hl).
  - intros m Hm Hl. rewrite useCustomSides_declared; fold support.
    + by eapply Hprop.
    + by rewrite Hm.
    + by rewrite (Hprop _ _ Hm Hl).
  - intros m Hm Hl. eapply useCustomSides_boolean. fold support.
    by eapply Hprop.
Qed.

(** [C10] The check logs its warning exactly when it returns [false], and
    then it logs that one warning.  An empty list of sides, a list with
    only names that are neither individual nor axial sides, an absent
    configuration and a boolean one are all reported valid, with no
    warning. *)
Theorem warning_iff_invalid blockName f :
  let support := getBlockSupport blockName [SPACING_SUPPORT_KEY] in
  (∀ valid warnings,
     useIsDimensionsSupportValid blockName f = Returns valid warnings →
     (warnings ≠ [] ↔ valid = false)
     ∧ (valid = false → warnings = [warning (feature_name f) blockName]))
  ∧ (useCustomSides blockName f = CArr [] →
     useIsDimensionsSupportValid blockName f = Returns true [])
  ∧ (∀ l, useCustomSides blockName f = CArr l →
       ¬ has_side ALL_SIDES l → ¬ has_side AXIAL_SIDES l →
       useIsDimensionsSupportValid blockName f = Returns true [])
  ∧ (truthy support = false →
     useIsDimensionsSupportValid blockName f = Returns true [])
  ∧ (prop support (feature_name f) = CUndefined →
     useIsDimensionsSupportValid blockName f = Returns true [])
  ∧ (∀ b, prop support (feature_name f) = CBool b →
       useIsDimensionsSupportValid blockName f = Returns true []).
Proof.
  intros support.
  pose proof (useCustomSides_falsy blockName f) as Hnone.
  pose proof (useCustomSides_boolean blockName f) as Hbool.
  pose proof (useCustomSides_declared blockName f) as Hother.
  fold support in Hnone, Hbool, Hother.
  split_and!.
  - intros valid warnings. unfold useIsDimensionsSupportValid.
    destruct (useCustomSides blockName f) as [| |b|n|s|l|m]; simpl;
      repeat case_match; first [done | by intros [= <- <-]].
  - intros Hl. by rewrite (valid_on_list _ _ _ Hl).
  - intros l Hl Hall%some_includes_false Hax.
    by rewrite (valid_on_list _ _ _ Hl), Hall.
  - intros Hs. apply valid_on_falsy. by rewrite Hnone.
  - intros Hs. apply valid_on_falsy.
    destruct (truthy support) eqn:Ht; [|by rewrite Hnone].
    rewrite Hother, Hs by (done || by rewrite Hs). done.
  - intros b Hs. apply valid_on_falsy. by rewrite (Hbool b).
Qed.
End HooksFacts.

(** ** The panel *)

Section PanelFacts.
Variable Platform_OS : string.
Variable getBlockSupport : string → list string → config.
Variables height minHeight margin padding : FeatureHooks.

Abbreviation hasDimensionsSupport :=
  (hasDimensionsSupport Platform_OS height minHeight margin padding).
Abbreviation useIsDimensionsDisabled :=
  (useIsDimensionsDisabled height minHeight margin padding).
Abbreviation DimensionsPanel :=
  (DimensionsPanel Platform_OS getBlockSupport height minHeight margin padding).
Abbreviation none_supported := (none_supported height minHeight margin padding).
Abbreviation all_disabled := (all_disabled height minHeight margin padding).

Lemma hasDimensionsSupport_false blockName :
  hasDimensionsSupport blockName = false
  ↔ Platform_OS ≠ "web" ∨ none_supported blockName.
Proof.
  unfold hasDimensionsSupport, none_supported.
  case_bool_decide as Hweb; simpl.
  - rewrite !orb_false_iff. tauto.
  - split; [by left|done].
Qed.

Lemma useIsDimensionsDisabled_true props :
  useIsDimensionsDisabled props = true ↔ all_disabled props.
Proof.
  unfold useIsDimensionsDisabled, all_disabled. simpl.
  rewrite !andb_true_iff. tauto.
Qed.

Lemma DimensionsPanel_None props :
  DimensionsPanel props = None
  ↔ useIsDimensionsDisabled props = true
    ∨ hasDimensionsSupport (name props) = false.
Proof.
  unfold DimensionsPanel. cbv zeta.
  destruct (useIsDimensionsDisabled props), (hasDimensionsSupport (name props));
    simpl; split; try done; try tauto; by intros [|].
Qed.

(** [C6] The panel renders nothing when the platform is not the web, when
    the block type supports none of height, minimum height, margin and
    padding, and when the four features are each disabled, and in no other
    case; [hasDimensionsSupport] is [false] for a block name exactly when the
    platform is not the web or none of the four features is supported. *)
Theorem panel_suppressed props blockName :
  (Platform_OS ≠ "web" ∨ none_supported (name props) ∨ all_disabled props
   → DimensionsPanel props = None)
  ∧ (Platform_OS ≠ "web" ∨ none_supported blockName
     → hasDimensionsSupport blockName = false)
  ∧ (DimensionsPanel props = None
     → Platform_OS ≠ "web" ∨ none_supported (name props) ∨ all_disabled props)
  ∧ (hasDimensionsSupport blockName = false
     → Platform_OS ≠ "web" ∨ none_supported blockName).
Proof.
  rewrite DimensionsPanel_None, useIsDimensionsDisabled_true.
  rewrite !hasDimensionsSupport_false. tauto.
Qed.
End PanelFacts.

(** ** The style metadata table *)

Lemma entries_NoDup : NoDup (Constants.entries.*1).
Proof. apply (bool_decide_unpack _). by vm_compute. Qed.

Lemma entries_well_formed :
  Forall (λ p, Constants.well_formed p.2 = true) Constants.entries.
Proof. unfold Constants.entries. repeat constructor. Qed.

(** [C9] Every entry of [__EXPERIMENTAL_STYLE_PROPERTY] is found under its
    property name, and the entry found under a name has a storage path and a
    support path with at least one key each; the mapping of sub-properties
    is there for some entries only.  The entries of [margin] and [padding]
    have the same path for both, [spacing, margin] and [spacing, padding],
    and their sub-properties map to the four sides top, right, bottom and
    left. *)
Theorem style_property_table :
  (∀ name_ e, (name_, e) ∈ Constants.entries →
     Constants.__EXPERIMENTAL_STYLE_PROPERTY !! name_ = Some e)
  ∧ (∀ name_ e, Constants.__EXPERIMENTAL_STYLE_PROPERTY !! name_ = Some e →
       Constants.value e ≠ [] ∧ Constants.support e ≠ [])
  ∧ (∃ e, Constants.__EXPERIMENTAL_STYLE_PROPERTY !! "color" = Some e
          ∧ Constants.properties e = None)
  ∧ (∃ e, Constants.__EXPERIMENTAL_STYLE_PROPERTY !! "margin" = Some e
          ∧ Constants.value e = ["spacing"; "margin"]
          ∧ Constants.support e = Constants.value e
          ∧ Constants.targets e = ALL_SIDES)
  ∧ (∃ e, Constants.__EXPERIMENTAL_STYLE_PROPERTY !! "padding" = Some e
          ∧ Constants.value e = ["spacing"; "padding"]
          ∧ Constants.support e = Constants.value e
          ∧ Constants.targets e = ALL_SIDES).
Proof.
  split_and!.
  - intros name_ e He. apply elem_of_list_to_map_1; [apply entries_NoDup|done].
  - intros name_ e He%elem_of_list_to_map_2.
    pose proof entries_well_formed as Hwf. rewrite Forall_forall in Hwf.
    specialize (Hwf _ He). simpl in Hwf.
    apply andb_true_iff in Hwf as [Hv Hs].
    apply negb_true_iff, bool_decide_eq_false in Hv, Hs. done.
  - eexists. split; [by vm_compute|done].
  - eexists. split; [by vm_compute|done].
  - eexists. split; [by vm_compute|done].
Qed.

(** ** The statements at sample inputs *)

Lemma resetAll_single_update_witness :
  resetAll sample_props
  = [ {[ "style" := VObj {[ "color" := VObj {[ "text" := VStr "#000" ]};
                            "spacing" := VObj {[ "blockGap" := VStr "2em" ]} ]} ]} ]
  ∧ length (resetAll sample_props) = 1.
Proof.
  apply (resetAll_single_update sample_props sample_style); reflexivity.
Defined.

Lemma resetAll_no_empty_object_witness :
  ∃ style',
    resetAll sample_props = [ {[ "style" := style' ]} ]
    ∧ no_empty_object style' = true
    ∧ ∀ w, nested_in w style' → w ≠ VObj ∅ ∧ w ≠ VUndefined.
Proof. apply (resetAll_no_empty_object sample_props). Defined.

(** The list [["top", "foo"]] is a subset neither of the individual sides
    nor of the axial sides, and the check reports it valid. *)
Lemma subset_validity_counterexample :
  useCustomSides (supports (CObj {[ "margin" := CArr [CStr "top"; CStr "foo"] ]}))
    "core/group" Margin
  = CArr [CStr "top"; CStr "foo"]
  ∧ useIsDimensionsSupportValid
      (supports (CObj {[ "margin" := CArr [CStr "top"; CStr "foo"] ]}))
      "core/group" Margin
    = Returns true []
  ∧ sides_valid_spec [CStr "top"; CStr "foo"] = false
  ∧ ¬ (useIsDimensionsSupportValid
         (supports (CObj {[ "margin" := CArr [CStr "top"; CStr "foo"] ]}))
         "core/group" Margin
       = Returns true []
       ↔ sides_valid_spec [CStr "top"; CStr "foo"] = true).
Proof.
  split_and!; try reflexivity.
  intros [Hvalid _]. by specialize (Hvalid eq_refl).
Qed.

Lemma valid_iff_not_mixed_witness :
  (useIsDimensionsSupportValid
     (supports (CObj {[ "margin" := CArr [CStr "top"; CStr "foo"] ]}))
     "core/group" Margin
   = Returns true []
   ↔ ¬ (has_side ALL_SIDES [CStr "top"; CStr "foo"]
        ∧ has_side AXIAL_SIDES [CStr "top"; CStr "foo"]))
  ∧ useIsDimensionsSupportValid
      (supports (CObj {[ "margin" := CArr [CStr "top"; CStr "bottom"] ]}))
      "core/group" Margin
    = Returns true [].
Proof.
  split.
  - apply (valid_iff_not_mixed
             (supports (CObj {[ "margin" := CArr [CStr "top"; CStr "foo"] ]}))
             "core/group" Margin [CStr "top"; CStr "foo"]).
    reflexivity.
  - destruct (valid_iff_not_mixed
                (supports (CObj {[ "margin" := CArr [CStr "top"; CStr "bottom"] ]}))
                "core/group" Margin [CStr "top"; CStr "bottom"])
      as (_ & Hsubset & _); [reflexivity|].
    apply Hsubset. reflexivity.
Defined.

Lemma mixed_sides_invalid_witness :
  useIsDimensionsSupportValid
    (supports (CObj {[ "margin" := CArr [CStr "top"; CStr "vertical"] ]}))
    "core/group" Margin
  = Returns false [ warning "margin" "core/group" ].
Proof.
  apply (mixed_sides_invalid
           (supports (CObj {[ "margin" := CArr [CStr "top"; CStr "vertical"] ]}))
           "core/group" Margin
           {[ "margin" := CArr [CStr "top"; CStr "vertical"] ]}
           [CStr "top"; CStr "vertical"]).
  - reflexivity.
  - reflexivity.
  - exists "top". split; [by vm_compute; left | by left].
  - exists "vertical". split; [by vm_compute; left | by right; left].
Defined.

Lemma useCustomSides_spec_witness :
  useCustomSides
    (supports (CObj {[ "margin" := CArr [CStr "top"; CStr "bottom"];
                       "padding" := CBool true ]}))
    "core/group" Margin
  = CArr [CStr "top"; CStr "bottom"]
  ∧ useCustomSides
      (supports (CObj {[ "margin" := CArr [CStr "top"; CStr "bottom"];
                         "padding" := CBool true ]}))
      "core/group" Padding
    = CUndefined
  ∧ useCustomSides (supports CUndefined) "core/group" Margin = CUndefined.
Proof.
  split_and!.
  - destruct (useCustomSides_spec
                (supports (CObj {[ "margin" := CArr [CStr "top"; CStr "bottom"];
                                   "padding" := CBool true ]}))
                "core/group" Margin) as (_ & _ & _ & _ & Hsides & _).
    eapply Hsides; reflexivity.
  - destruct (useCustomSides_spec
                (supports (CObj {[ "margin" := CArr [CStr "top"; CStr "bottom"];
                                   "padding" := CBool true ]}))
                "core/group" Padding) as (_ & _ & _ & _ & _ & Htrue).
    eapply Htrue; reflexivity.
  - destruct (useCustomSides_spec (supports CUndefined) "core/group" Margin)
      as (Hnone & _).
    apply Hnone. reflexivity.
Defined.

Lemma panel_suppressed_witness :
  DimensionsPanel "native" (supports CUndefined)
    enabled_feature enabled_feature enabled_feature enabled_feature
    sample_props
  = None
  ∧ hasDimensionsSupport "native"
      enabled_feature enabled_feature enabled_feature enabled_feature
      "core/group"
    = false.
Proof.
  split.
  - apply (panel_suppressed "native" (supports CUndefined)
             enabled_feature enabled_feature enabled_feature enabled_feature
             sample_props "core/group").
    left. intros [=].
  - apply (panel_suppressed "native" (supports CUndefined)
             enabled_feature enabled_feature enabled_feature enabled_feature
             sample_props "core/group").
    left. intros [=].
Defined.

Lemma style_property_table_witness :
  Constants.__EXPERIMENTAL_STYLE_PROPERTY !! "letterSpacing"
  = Some (Constants.mkStyleProperty
            ["typography"; "letterSpacing"] ["__experimentalLetterSpacing"] None).
Proof.
  destruct style_property_table as (Hfound & _).
  apply Hfound. unfold Constants.entries.
  do 18 apply list_elem_of_further. apply list_elem_of_here.
Defined.

Lemma warning_iff_invalid_witness :
  useIsDimensionsSupportValid (supports (CObj {[ "margin" := CArr [] ]}))
    "core/group" Margin
  = Returns true []
  ∧ useIsDimensionsSupportValid (supports (CObj {[ "margin" := CBool false ]}))
      "core/group" Margin
    = Returns true []
  ∧ useIsDimensionsSupportValid (supports CUndefined) "core/group" Margin
    = Returns true [].
Proof.
  split_and!.
  - destruct (warning_iff_invalid (supports (CObj {[ "margin" := CArr [] ]}))
                "core/group" Margin) as (_ & Hempty & _).
    apply Hempty. reflexivity.
  - destruct (warning_iff_invalid
                (supports (CObj {[ "margin" := CBool false ]}))
                "core/group" Margin) as (_ & _ & _ & _ & _ & Hbool).
    apply (Hbool false). reflexivity.
  - destruct (warning_iff_invalid (supports CUndefined) "core/group" Margin)
      as (_ & _ & _ & Habsent & _).
    apply Habsent. reflexivity.
Defined.

(** * Further properties of the code *)

(** ** The items of the panel *)

Section PanelItems.
Variable Platform_OS : string.
Variable getBlockSupport : string → list string → config.
Variables height minHeight margin padding : FeatureHooks.

Abbreviation DimensionsPanel :=
  (DimensionsPanel Platform_OS getBlockSupport height minHeight margin padding).
Abbreviation hooks := (hooks_of height minHeight margin padding).

(** The default visibility an item of the component [e] is given. *)
Abbreviation default_shown props e :=
  (prop (getBlockSupport (name props)
           [control_support_key e; "__experimentalDefaultControls"])
        (control_feature e)).

(** A rendered panel, with the flags its items depend on. *)
Lemma Panel_Some props el :
  DimensionsPanel props = Some el →
  useIsDimensionsDisabled height minHeight margin padding props = false
  ∧ key el = "dimensions"
  ∧ panel_resetAll el = resetAll props
  ∧ panel_children el
    = (when (negb (useIsDisabled height props))
        (mkItem (Some "single-column") (hasValue height props) "Height"
           (reset height props) (default_shown props HeightEdit) HeightEdit)
      ++ when (negb (useIsDisabled minHeight props))
        (mkItem (Some "single-column") (hasValue minHeight props)
           "Minimum height" (reset minHeight props)
           (default_shown props MinHeightEdit) MinHeightEdit)
      ++ when (negb (useIsDisabled padding props))
        (mkItem None (hasValue padding props) "Padding"
           (reset padding props) (default_shown props PaddingEdit) PaddingEdit)
      ++ when (negb (useIsDisabled margin props))
        (mkItem None (hasValue margin props) "Margin"
           (reset margin props) (default_shown props MarginEdit) MarginEdit))%list.
Proof.
  unfold DimensionsPanel. cbv zeta.
  destruct (useIsDimensionsDisabled _ _ _ _ props); [done|].
  destruct (negb _); [done|]. simpl. by intros [= <-].
Qed.

(** The items of a rendered panel are those of the features that are not
    disabled, in the order height, minimum height, padding, margin: a
    disabled feature has no item and every other feature has exactly one. *)
Theorem panel_children_enabled props el :
  DimensionsPanel props = Some el →
  item_children <$> panel_children el
  = filter (λ e, useIsDisabled (hooks e) props = false) control_order.
Proof.
  intros (_ & _ & _ & ->)%Panel_Some.
  destruct (useIsDisabled height props) eqn:Hh,
    (useIsDisabled minHeight props) eqn:Hm,
    (useIsDisabled padding props) eqn:Hp,
    (useIsDisabled margin props) eqn:Hg;
    unfold control_order; cbn [when negb app fmap list_fmap item_children];
    repeat (rewrite filter_cons; cbn [hooks_of]);
    rewrite ?Hh, ?Hm, ?Hp, ?Hg, filter_nil; reflexivity.
Qed.

(** A rendered panel is never empty: it has between one and four items,
    with labels that differ. *)
Theorem panel_never_empty props el :
  DimensionsPanel props = Some el →
  panel_children el ≠ []
  ∧ (length (panel_children el) ≤ 4)%nat
  ∧ NoDup (item_label <$> panel_children el).
Proof.
  intros (Hdis & _ & _ & ->)%Panel_Some. revert Hdis.
  unfold useIsDimensionsDisabled. cbv zeta.
  destruct (useIsDisabled height props), (useIsDisabled minHeight props),
    (useIsDisabled padding props), (useIsDisabled margin props);
    simpl; intros Hdis; try done;
    (split_and!; [done|lia|]);
    repeat (apply NoDup_cons; split;
            [rewrite ?elem_of_cons, elem_of_nil; intros H;
             repeat destruct H as [H|H]; done|]);
    apply NoDup_nil_2.
Qed.

(** Each item of a rendered panel is wired to its own feature: its value
    test, its reset action and its default visibility are those of the
    feature of the component it shows, the default visibility being what the
    block type declares under that feature's support key, as it is; and the
    panel's reset action is [resetAll], whichever features are disabled. *)
Theorem panel_items_wiring props el item :
  DimensionsPanel props = Some el →
  item ∈ panel_children el →
  key el = "dimensions"
  ∧ panel_resetAll el = resetAll props
  ∧ useIsDisabled (hooks (item_children item)) props = false
  ∧ item_hasValue item = hasValue (hooks (item_children item)) props
  ∧ item_onDeselect item = reset (hooks (item_children item)) props
  ∧ item_isShownByDefault item = default_shown props (item_children item).
Proof.
  intros (_ & Hkey & Hreset & ->)%Panel_Some Hitem.
  split; [done|]. split; [done|].
  rewrite !elem_of_app in Hitem. unfold when in Hitem.
  destruct Hitem as [Hitem|[Hitem|[Hitem|Hitem]]];
    match type of Hitem with
    | context [negb ?b] => destruct b eqn:Hb
    end; simpl in Hitem;
    try (by apply elem_of_nil in Hitem);
    apply list_elem_of_singleton in Hitem as ->; simpl; by rewrite Hb.
Qed.

(** When the block type declares no default controls, every item of the
    panel gets [undefined] as its default visibility; the panel is rendered
    all the same. *)
Theorem panel_defaults_absent props el item :
  (∀ k, getBlockSupport (name props) [k; "__experimentalDefaultControls"]
        = CUndefined) →
  DimensionsPanel props = Some el →
  item ∈ panel_children el →
  item_isShownByDefault item = CUndefined.
Proof.
  intros Hnone (_ & _ & _ & ->)%Panel_Some Hitem.
  rewrite !elem_of_app in Hitem. unfold when in Hitem.
  destruct Hitem as [Hitem|[Hitem|[Hitem|Hitem]]];
    match type of Hitem with
    | context [negb ?b] => destruct b
    end; simpl in Hitem;
    try (by apply elem_of_nil in Hitem);
    apply list_elem_of_singleton in Hitem as ->; simpl; by rewrite Hnone.
Qed.
End PanelItems.

(** ** The sides hooks at their edges *)



Section HooksEdges.
Variable getBlockSupport : string → list string → config.

Abbreviation useCustomSides := (useCustomSides getBlockSupport).
Abbreviation useIsDimensionsSupportValid :=
  (useIsDimensionsSupportValid getBlockSupport).

(** [useCustomSides] never returns a boolean: what it returns is
    [undefined] or the non-boolean value configured for the feature. *)
Theorem useCustomSides_never_boolean blockName f :
  is_boolean (useCustomSides blockName f) = false
  ∧ (useCustomSides blockName f = CUndefined
     ∨ useCustomSides blockName f
       = prop (getBlockSupport blockName [SPACING_SUPPORT_KEY]) (feature_name f)).
Proof.
  unfold useCustomSides. cbv zeta.
  destruct (truthy _); simpl; [|by split; [|left]].
  destruct (is_boolean (prop _ _)) eqn:Hb; simpl; [by split; [|left]|].
  split; [done|by right].
Qed.

(** The validity check throws exactly when the value configured for the
    feature is truthy and is not a list: a non-empty string, a number other
    than zero or an object given in place of the list of sides makes
    [sides.some] fail.  It logs nothing before it throws. *)
Theorem valid_throws_iff blockName f :
  (useIsDimensionsSupportValid blockName f = Throws
   ↔ truthy (useCustomSides blockName f) = true
     ∧ ∀ l, useCustomSides blockName f ≠ CArr l)
  ∧ (∀ m v, getBlockSupport blockName [SPACING_SUPPORT_KEY] = CObj m →
       m !! feature_name f = Some v →
       truthy v = true → is_boolean v = false → (∀ l, v ≠ CArr l) →
       useIsDimensionsSupportValid blockName f = Throws).
Proof.
  assert (useIsDimensionsSupportValid blockName f = Throws
          ↔ truthy (useCustomSides blockName f) = true
            ∧ ∀ l, useCustomSides blockName f ≠ CArr l) as Hiff.
  { unfold useIsDimensionsSupportValid. cbv zeta.
    destruct (useCustomSides blockName f) as [| |b|n|s|l|m] eqn:Hs; simpl.
    - split; [done|]. by intros [? _].
    - split; [done|]. by intros [? _].
    - destruct b; (split; [done|]); by intros [? _].
    - destruct (negb _); (split; [done|]); by intros [? _].
    - destruct (negb _); (split; [done|]); by intros [? _].
    - split.
      + by repeat case_match.
      + intros [_ Hl]. by destruct (Hl l).
    - done. }
  split; [done|].
  intros m v Hm Hv Htruthy Hbool Hlist. apply Hiff.
  assert (useCustomSides blockName f = v) as ->; [|done].
  unfold useCustomSides. rewrite Hm. simpl. rewrite Hv. simpl.
  by rewrite Hbool.
Qed.

(** Validity only depends on which sides a list names: a list whose sides
    all occur in a valid list is valid, so that order and repetitions make
    no difference and taking sides away never invalidates a declaration. *)
Theorem valid_sublist blockName f l blockName' f' l' :
  useCustomSides blockName f = CArr l →
  useCustomSides blockName' f' = CArr l' →
  l' ⊆ l →
  useIsDimensionsSupportValid blockName f = Returns true [] →
  useIsDimensionsSupportValid blockName' f' = Returns true [].
Proof.
  intros Hl Hl' Hsub.
  rewrite (valid_on_list _ _ _ _ Hl), (valid_on_list _ _ _ _ Hl').
  assert (∀ allowed, some (includes allowed) l' = true →
                     some (includes allowed) l = true) as Hmono.
  { intros allowed (s & Hs & Hin)%some_includes. apply some_includes.
    exists s. split; [done|]. by apply Hsub. }
  destruct (some (includes ALL_SIDES) l') eqn:Hall;
    destruct (some (includes AXIAL_SIDES) l') eqn:Hax; try done.
  by rewrite (Hmono _ Hall), (Hmono _ Hax).
Qed.

End HooksEdges.

(** ** The object literal of the reset action *)

Lemma get_no_properties style k :
  spread style = ∅ → get style k = VUndefined.
Proof.
  destruct style; simpl; try done. intros ->. by rewrite lookup_empty.
Qed.

Lemma get_resetAll_literal_dimensions style :
  get (resetAll_literal style) "dimensions"
  = without "height" "minHeight" (get style "dimensions").
Proof.
  unfold resetAll_literal, get at 1.
  rewrite lookup_insert_ne by key_ne. by rewrite lookup_insert_eq.
Qed.

Lemma get_resetAll_literal_spacing style :
  get (resetAll_literal style) "spacing"
  = without "margin" "padding" (get style "spacing").
Proof. unfold resetAll_literal, get at 1. by rewrite lookup_insert_eq. Qed.

(** A style without properties of its own (no [style] attribute at all,
    [undefined], [null], a boolean, a number, [{}]) is reset like the
    empty style object: nothing throws, and the object handed to
    [cleanEmptyObject] is the two categories with their fields set to
    [undefined]. *)
Theorem resetAll_missing_style props :
  spread (default VUndefined (attributes props !! "style")) = ∅ →
  resetAll props
  = resetAll (mkProps (name props) (<["style" := VObj ∅]> (attributes props)))
  ∧ resetAll_literal (default VUndefined (attributes props !! "style"))
    = VObj {[ "dimensions" :=
                VObj {[ "height" := VUndefined; "minHeight" := VUndefined ]};
              "spacing" :=
                VObj {[ "margin" := VUndefined; "padding" := VUndefined ]} ]}.
Proof.
  intros Hnone.
  assert (resetAll_literal (default VUndefined (attributes props !! "style"))
          = resetAll_literal (VObj ∅)) as Hlit.
  { unfold resetAll_literal. by rewrite !get_no_properties, Hnone by done. }
  split.
  - unfold resetAll, resetAll_style. cbn [attributes].
    by rewrite Hlit, lookup_insert_eq.
  - rewrite Hlit. reflexivity.
Qed.

(** The object handed to [cleanEmptyObject] differs from the current style
    in the four fields only: every other property of the style, of its
    [dimensions] and of its [spacing] is there as it was. *)
Theorem resetAll_literal_frame style k :
  (k ≠ "dimensions" → k ≠ "spacing" →
   spread (resetAll_literal style) !! k = spread style !! k)
  ∧ (k ≠ "height" → k ≠ "minHeight" →
     spread (get (resetAll_literal style) "dimensions") !! k
     = spread (get style "dimensions") !! k)
  ∧ (k ≠ "margin" → k ≠ "padding" →
     spread (get (resetAll_literal style) "spacing") !! k
     = spread (get style "spacing") !! k).
Proof.
  split_and!.
  - intros Hd Hs. unfold resetAll_literal. simpl.
    by rewrite !lookup_insert_ne by done.
  - intros Hh Hm. rewrite get_resetAll_literal_dimensions. unfold without. simpl.
    by rewrite !lookup_insert_ne by done.
  - intros Hm Hp. rewrite get_resetAll_literal_spacing. unfold without. simpl.
    by rewrite !lookup_insert_ne by done.
Qed.

(** The reset action clears margin and padding where the metadata table
    says they are stored: in the object handed to [cleanEmptyObject], the
    value at the storage path of the table's [margin] and [padding] entries
    is [undefined], as it is at the two paths under [dimensions], whatever
    the style was. *)
Theorem resetAll_clears_stored_values style name_ e :
  name_ = "margin" ∨ name_ = "padding" →
  Constants.__EXPERIMENTAL_STYLE_PROPERTY !! name_ = Some e →
  get_path (resetAll_literal style) (Constants.value e) = VUndefined
  ∧ spread (get (resetAll_literal style) "spacing") !! name_ = Some VUndefined
  ∧ get_path (resetAll_literal style) ["dimensions"; "height"] = VUndefined
  ∧ get_path (resetAll_literal style) ["dimensions"; "minHeight"] = VUndefined.
Proof.
  intros Hname He.
  assert (Constants.value e = ["spacing"; name_]) as ->.
  { destruct Hname as [-> | ->]; vm_compute in He; by injection He as <-. }
  unfold get_path. cbn [foldl].
  rewrite get_resetAll_literal_spacing, get_resetAll_literal_dimensions.
  unfold without, get. cbn [spread].
  destruct Hname as [-> | ->]; split_and!;
    by rewrite ?lookup_insert_eq, ?(lookup_insert_ne _ "padding" "margin"),
         ?(lookup_insert_ne _ "minHeight" "height"), ?lookup_insert_eq
      by key_ne.
Qed.

(** ** The tables of [constants.js] *)

(** A decidable statement about the tables is settled by evaluating it. *)
Local Ltac by_evaluation := apply (bool_decide_unpack _); by vm_compute.

Lemma entries_storage_distinct :
  Forall (λ p1, Forall (λ p2,
    Constants.value p1.2 = Constants.value p2.2 → p1.1 = p2.1)
    Constants.entries) Constants.entries.
Proof. by_evaluation. Qed.

Lemma entries_sub_properties_distinct :
  Forall (λ p1, Forall (λ p2, Forall (λ sub,
    sub ∈ Constants.sub_properties p2.2 → p1.1 = p2.1)
    (Constants.sub_properties p1.2))
    Constants.entries) Constants.entries.
Proof. by_evaluation. Qed.

Lemma entries_sub_properties_shape :
  Forall (λ p,
    NoDup (Constants.sub_properties p.2)
    ∧ NoDup (Constants.targets p.2)
    ∧ Forall (λ sub, sub ∉ Constants.entries.*1) (Constants.sub_properties p.2)
    ∧ (Constants.properties p.2 = None
       ∨ length (Constants.sub_properties p.2) = 4%nat))
    Constants.entries.
Proof. by_evaluation. Qed.

Lemma entries_elements_declared :
  Forall (λ p, ∀ k, Constants.value p.2 !! 0%nat = Some "elements" →
                    Constants.value p.2 !! 1%nat = Some k →
                    k ∈ Constants.element_entries.*1)
    Constants.entries.
Proof.
  unfold Constants.entries.
  repeat (apply Forall_cons; split;
          [simpl; intros k; try discriminate;
           intros _ [= <-]; by_evaluation|]).
  apply Forall_nil_2.
Qed.

(** No two properties of the metadata table are stored at the same path of
    a style object: the storage path tells the property. *)
Theorem style_property_storage_distinct n1 n2 e1 e2 :
  Constants.__EXPERIMENTAL_STYLE_PROPERTY !! n1 = Some e1 →
  Constants.__EXPERIMENTAL_STYLE_PROPERTY !! n2 = Some e2 →
  Constants.value e1 = Constants.value e2 →
  n1 = n2.
Proof.
  intros H1%elem_of_list_to_map_2 H2%elem_of_list_to_map_2.
  pose proof entries_storage_distinct as Hall.
  rewrite Forall_forall in Hall. specialize (Hall _ H1).
  rewrite Forall_forall in Hall. by specialize (Hall _ H2).
Qed.

(** A sub-property (a CSS property such as [marginTop]) belongs to one
    entry of the table only and is not the name of an entry; the entries
    that have sub-properties have four of them, which differ and map to
    sides or corners that differ. *)
Theorem sub_properties_unambiguous n1 e1 sub :
  Constants.__EXPERIMENTAL_STYLE_PROPERTY !! n1 = Some e1 →
  sub ∈ Constants.sub_properties e1 →
  (∀ n2 e2, Constants.__EXPERIMENTAL_STYLE_PROPERTY !! n2 = Some e2 →
            sub ∈ Constants.sub_properties e2 → n1 = n2)
  ∧ Constants.__EXPERIMENTAL_STYLE_PROPERTY !! sub = None
  ∧ length (Constants.sub_properties e1) = 4%nat
  ∧ NoDup (Constants.sub_properties e1)
  ∧ NoDup (Constants.targets e1).
Proof.
  intros H1%elem_of_list_to_map_2 Hsub.
  pose proof entries_sub_properties_shape as Hshape.
  rewrite Forall_forall in Hshape.
  destruct (Hshape _ H1) as (Hnd & Hnt & Hfresh & Hlen). simpl in *.
  split_and!; [| | |done|done].
  - intros n2 e2 H2%elem_of_list_to_map_2 Hsub2.
    pose proof entries_sub_properties_distinct as Hall.
    rewrite Forall_forall in Hall. specialize (Hall _ H1).
    rewrite Forall_forall in Hall. specialize (Hall _ H2).
    rewrite Forall_forall in Hall. by apply (Hall sub).
  - apply not_elem_of_list_to_map_1.
    rewrite Forall_forall in Hfresh. by apply Hfresh.
  - destruct Hlen as [Hnone|Hlen]; [|done].
    unfold Constants.sub_properties in Hsub. rewrite Hnone in Hsub.
    by apply elem_of_nil in Hsub.
Qed.

(** The presets generate names that do not collide: no two presets share
    their path in the settings, their value key or the infix of their CSS
    variables, and no class suffix is used twice, within a preset or by two
    of them. *)
Theorem preset_metadata_distinct :
  NoDup (Constants.path <$> Constants.__EXPERIMENTAL_PRESET_METADATA)
  ∧ NoDup (Constants.valueKey <$> Constants.__EXPERIMENTAL_PRESET_METADATA)
  ∧ NoDup (Constants.cssVarInfix <$> Constants.__EXPERIMENTAL_PRESET_METADATA)
  ∧ NoDup (Constants.classSuffix
             <$> (Constants.__EXPERIMENTAL_PRESET_METADATA
                    ≫= Constants.classes)).
Proof. split_and!; by_evaluation. Qed.

(** An element of [__EXPERIMENTAL_ELEMENTS] is told by its selector, and
    the table of style properties only stores values under elements that
    are declared there: a storage path that starts with [elements] goes on
    with the name of one of them. *)
Theorem elements_declared :
  (∀ k1 k2 selector,
     Constants.__EXPERIMENTAL_ELEMENTS !! k1 = Some selector →
     Constants.__EXPERIMENTAL_ELEMENTS !! k2 = Some selector →
     k1 = k2)
  ∧ (∀ name_ e k rest,
       Constants.__EXPERIMENTAL_STYLE_PROPERTY !! name_ = Some e →
       Constants.value e = "elements" :: k :: rest →
       is_Some (Constants.__EXPERIMENTAL_ELEMENTS !! k)).
Proof.
  split.
  - intros k1 k2 selector H1%elem_of_list_to_map_2 H2%elem_of_list_to_map_2.
    assert (Forall (λ p1, Forall (λ p2, p1.2 = p2.2 → p1.1 = p2.1)
              Constants.element_entries) Constants.element_entries) as Hall
      by by_evaluation.
    rewrite Forall_forall in Hall. specialize (Hall _ H1).
    rewrite Forall_forall in Hall. by specialize (Hall _ H2 eq_refl).
  - intros name_ e k rest He%elem_of_list_to_map_2 Hpath.
    pose proof entries_elements_declared as Hall.
    rewrite Forall_forall in Hall. specialize (Hall _ He k). cbn [snd] in Hall.
    rewrite Hpath in Hall. specialize (Hall eq_refl eq_refl).
    apply list_elem_of_fmap in Hall as ([k' selector] & -> & Hin).
    exists selector. apply elem_of_list_to_map_1; [by_evaluation|done].
Qed.

(** ** The further properties at sample inputs *)

Lemma panel_children_enabled_witness :
  ∃ el,
    DimensionsPanel "web" (supports CUndefined)
      enabled_feature disabled_feature enabled_feature disabled_feature
      sample_props = Some el
    ∧ item_children <$> panel_children el = [HeightEdit; MarginEdit].
Proof.
  eexists. split; [reflexivity|].
  rewrite (panel_children_enabled "web" (supports CUndefined)
             enabled_feature disabled_feature enabled_feature disabled_feature
             sample_props _ eq_refl).
  reflexivity.
Defined.

Lemma panel_never_empty_witness :
  ∃ el,
    DimensionsPanel "web" (supports CUndefined)
      enabled_feature disabled_feature enabled_feature disabled_feature
      sample_props = Some el
    ∧ panel_children el ≠ []
    ∧ (length (panel_children el) ≤ 4)%nat
    ∧ NoDup (item_label <$> panel_children el).
Proof.
  eexists. split; [reflexivity|].
  apply (panel_never_empty "web" (supports CUndefined)
           enabled_feature disabled_feature enabled_feature disabled_feature
           sample_props).
  reflexivity.
Defined.

Lemma panel_items_wiring_witness :
  ∃ el item,
    DimensionsPanel "web" (supports CUndefined)
      enabled_feature disabled_feature enabled_feature disabled_feature
      sample_props = Some el
    ∧ head (panel_children el) = Some item
    ∧ item_children item = HeightEdit
    ∧ item_onDeselect item = reset enabled_feature sample_props
    ∧ panel_resetAll el = resetAll sample_props.
Proof.
  eexists. eexists. split; [reflexivity|]. split; [reflexivity|].
  split; [reflexivity|].
  edestruct (panel_items_wiring "web" (supports CUndefined)
               enabled_feature disabled_feature enabled_feature disabled_feature
               sample_props) as (_ & Hreset & _ & _ & Hdeselect & _);
    [reflexivity|apply list_elem_of_here|].
  split; [exact Hdeselect|exact Hreset].
Defined.

Lemma panel_defaults_absent_witness :
  ∃ el item,
    DimensionsPanel "web" (supports CUndefined)
      enabled_feature disabled_feature enabled_feature disabled_feature
      sample_props = Some el
    ∧ head (panel_children el) = Some item
    ∧ item_isShownByDefault item = CUndefined.
Proof.
  eexists. eexists. split; [reflexivity|]. split; [reflexivity|].
  eapply (panel_defaults_absent "web" (supports CUndefined)
            enabled_feature disabled_feature enabled_feature disabled_feature
            sample_props).
  - intros k. unfold supports.
    destruct (decide _) as [Heq|]; [discriminate Heq|reflexivity].
  - reflexivity.
  - apply list_elem_of_here.
Defined.

Lemma valid_throws_iff_witness :
  useIsDimensionsSupportValid (supports (CObj {[ "margin" := CStr "top" ]}))
    "core/group" Margin
  = Throws.
Proof.
  destruct (valid_throws_iff (supports (CObj {[ "margin" := CStr "top" ]}))
              "core/group" Margin) as (_ & Hconfigured).
  apply (Hconfigured {[ "margin" := CStr "top" ]} (CStr "top"));
    try reflexivity.
  intros l. discriminate.
Defined.

Lemma valid_sublist_witness :
  useIsDimensionsSupportValid
    (supports (CObj {[ "margin" := CArr [CStr "top"; CStr "bottom"];
                       "padding" := CArr [CStr "bottom"; CStr "bottom"] ]}))
    "core/group" Padding
  = Returns true [].
Proof.
  apply (valid_sublist
           (supports (CObj {[ "margin" := CArr [CStr "top"; CStr "bottom"];
                              "padding" := CArr [CStr "bottom"; CStr "bottom"] ]}))
           "core/group" Margin [CStr "top"; CStr "bottom"]
           "core/group" Padding [CStr "bottom"; CStr "bottom"]).
  - reflexivity.
  - reflexivity.
  - intros x Hx. apply list_elem_of_further.
    apply elem_of_cons in Hx as [->|Hx]; [apply list_elem_of_here|].
    apply elem_of_cons in Hx as [->|Hx]; [apply list_elem_of_here|].
    by apply elem_of_nil in Hx.
  - reflexivity.
Defined.


Lemma resetAll_missing_style_witness :
  resetAll (mkProps "core/group" ∅)
  = resetAll (mkProps "core/group" {[ "style" := VObj ∅ ]}).
Proof.
  apply (resetAll_missing_style (mkProps "core/group" ∅)). reflexivity.
Defined.

Lemma resetAll_literal_frame_witness :
  spread (resetAll_literal sample_style) !! "color"
  = Some (VObj {[ "text" := VStr "#000" ]})
  ∧ spread (get (resetAll_literal sample_style) "spacing") !! "blockGap"
    = Some (VStr "2em").
Proof.
  destruct (resetAll_literal_frame sample_style "color") as (Hstyle & _).
  destruct (resetAll_literal_frame sample_style "blockGap") as (_ & _ & Hspacing).
  split.
  - rewrite Hstyle; [reflexivity|discriminate|discriminate].
  - rewrite Hspacing; [reflexivity|discriminate|discriminate].
Defined.

Lemma resetAll_clears_stored_values_witness :
  get_path sample_style ["spacing"; "margin"]
  = VObj {[ "top" := VStr "10px" ]}
  ∧ get_path (resetAll_literal sample_style) ["spacing"; "margin"] = VUndefined.
Proof.
  split; [reflexivity|].
  eapply (resetAll_clears_stored_values sample_style "margin").
  - by left.
  - reflexivity.
Defined.

Lemma style_property_storage_distinct_witness :
  "padding" = "padding".
Proof.
  eapply (style_property_storage_distinct "padding" "padding");
    reflexivity.
Defined.

Lemma sub_properties_unambiguous_witness :
  Constants.__EXPERIMENTAL_STYLE_PROPERTY !! "marginTop" = None.
Proof.
  eapply (sub_properties_unambiguous "margin").
  - reflexivity.
  - apply list_elem_of_here.
Defined.

Lemma elements_declared_witness :
  is_Some (Constants.__EXPERIMENTAL_ELEMENTS !! "link").
Proof.
  destruct elements_declared as (_ & Hdeclared).
  eapply (Hdeclared "linkColor"); reflexivity.
Defined.
